(** * DefexVision backend: the [/upload] detection pipeline of [src/app.py]

    The handler [upload] is modelled in a small state-and-exception monad.
    The state is the trace of calls made to the external collaborators
    (model, Cloudinary, Firebase, Supabase, SMTP) and the set of files on
    disk; Python exceptions are the constructors of [Exn].  The outcome of
    every external call is fixed by an environment [Env]. *)

From Stdlib Require Import String List Bool Arith ZArith Lia.
Import ListNotations.
Open Scope string_scope.

Module DefexVision.

(** ** Python exceptions that can be raised inside [upload] *)
Inductive Exn :=
| KeyError            (* request.files["image"] missing, r.names[cls_id] *)
| IOError             (* image.save *)
| InferenceError      (* model(image_path): decoding or inference *)
| UnboundLocalError   (* url / detected_classes read after an empty loop *)
| CloudinaryError     (* cloudinary.uploader.upload *)
| FirebaseError       (* ref.push *)
| SupabaseError       (* supabase.table(...).insert(...).execute() *)
| SMTPError.          (* smtplib: connect, starttls, login, send *)

(** ** Images and detections *)

(** A BGR colour as OpenCV takes it. *)
Definition Color : Type := (nat * nat * nat)%type.

(** What is drawn on the canvas; [DrawLabel name conf] is rendered as
    [f"{class_name} ({conf:.2f})"], the confidence kept in hundredths. *)
Inductive DrawOp :=
| DrawRect (p1 p2 : Z * Z) (color : Color) (thickness : nat)
| DrawLabel (class_name : string) (conf : nat) (org : Z * Z) (color : Color).

Record Image := mkImage { img_h : nat; img_w : nat; img_ops : list DrawOp }.

(** cv2.rectangle and cv2.putText draw in place; the canvas keeps its size. *)
Definition rectangle (img : Image) (p1 p2 : Z * Z) (color : Color) (t : nat) : Image :=
  mkImage (img_h img) (img_w img) (img_ops img ++ [DrawRect p1 p2 color t]).

Definition putText (img : Image) (name : string) (conf : nat) (org : Z * Z)
    (color : Color) : Image :=
  mkImage (img_h img) (img_w img) (img_ops img ++ [DrawLabel name conf org color]).

(** One entry of [r.boxes]: [box.cls], [box.xyxy[0]] and [box.conf]. *)
Record Box := mkBox {
  box_cls : nat;
  box_xyxy : Z * Z * Z * Z;
  box_conf : option nat
}.

(** One element of [results = model(image_path)]. *)
Record YResult := mkYResult {
  orig_img : Image;
  names : list (nat * string);   (* r.names, a dict from class id to label *)
  res_boxes : list Box
}.

(** Python dict lookup [d[k]]: [None] is the KeyError. *)
Fixpoint dict_get (d : list (nat * string)) (k : nat) : option string :=
  match d with
  | [] => None
  | (k', v) :: d' => if Nat.eqb k k' then Some v else dict_get d' k
  end.

(** ** Classification *)

Definition defect_classes : list string :=
  ["IC-defect"; "LED-defect"; "Mouse-click defect"; "Mouse-scrolldefect";
   "Resistor-defect"; "capacitor-defect"].

Inductive Category := Defect | NonDefect.

(** [category = "Defect" if class_name in defect_classes else "Non-Defect"] *)
Definition category_of (class_name : string) : Category :=
  if existsb (String.eqb class_name) defect_classes then Defect else NonDefect.

(** [color = (0, 0, 255) if category == "Defect" else (0, 255, 0)] *)
Definition color_of (c : Category) : Color :=
  match c with Defect => (0, 0, 255) | NonDefect => (0, 255, 0) end.

(** ** Outcomes and the pipeline monad *)

Inductive Outcome (A : Type) : Type :=
| Ok (a : A)
| Raise (e : Exn).
Arguments Ok {A} a.
Arguments Raise {A} e.

(** The inner [for box in r.boxes] loop of [upload] (lines 101-113): it
    starts from [img = r.orig_img.copy()] and [detected_classes = []]. *)
Fixpoint annotate_loop (nm : list (nat * string)) (img : Image)
    (detected_classes : list string) (bs : list Box)
    : Outcome (Image * list string) :=
  match bs with
  | [] => Ok (img, detected_classes)
  | box :: bs' =>
      match dict_get nm (box_cls box) with
      | None => Raise KeyError
      | Some class_name =>
          let '(x1, y1, x2, y2) := box_xyxy box in
          let conf := match box_conf box with Some c => c | None => 0 end in
          let category := category_of class_name in
          let color := color_of category in
          let img1 := rectangle img (x1, y1) (x2, y2) color 2 in
          let img2 := putText img1 class_name conf (x1, (y1 - 5)%Z) color in
          annotate_loop nm img2 (detected_classes ++ [class_name]) bs'
      end
  end.

Definition annotate (r : YResult) : Outcome (Image * list string) :=
  annotate_loop (names r) (orig_img r) [] (res_boxes r).

(** ** Records, events and the request *)

(** The record written to both stores; Firebase names the url field
    ["url"], Supabase ["image_url"]. *)
Record DetRecord := mkRec {
  rec_timestamp : string;
  rec_classes : list string;
  rec_url : option string;
  rec_email : option string
}.

(** The externally visible calls of one request, in order. *)
Inductive Event :=
| EvSave (path : string)                 (* image.save(image_path) *)
| EvInfer (path : string)                (* model(image_path) *)
| EvWrite (path : string)                (* cv2.imwrite(result_path, img) *)
| EvUpload (path : string)               (* cloudinary.uploader.upload *)
| EvFirebasePush (r : DetRecord)         (* db.reference("detections").push *)
| EvSupabaseInsert (r : DetRecord)       (* supabase.table("detections").insert *)
| EvSendEmail (receiver : option string) (timestamp : string)
    (classes : list string) (url : option string).

Record State := mkState { trace : list Event; files : list string }.

Definition M (A : Type) : Type := State -> Outcome A * State.

Definition ret {A} (a : A) : M A := fun s => (Ok a, s).

Definition bind {A B} (m : M A) (k : A -> M B) : M B :=
  fun s => match m s with
           | (Ok a, s') => k a s'
           | (Raise e, s') => (Raise e, s')
           end.

Definition raise {A} (e : Exn) : M A := fun s => (Raise e, s).

(** [try: m except Exception as e: h(e)] *)
Definition catch {A} (m : M A) (h : Exn -> M A) : M A :=
  fun s => match m s with
           | (Ok a, s') => (Ok a, s')
           | (Raise e, s') => h e s'
           end.

Definition emit (ev : Event) : M unit :=
  fun s => (Ok tt, mkState (trace s ++ [ev]) (files s)).

(** The directory listing after creating (or overwriting) the file [p]. *)
Definition add_file (p : string) (fs : list string) : list string :=
  if existsb (String.eqb p) fs then fs else fs ++ [p].

Definition write_file (p : string) : M unit :=
  fun s => (Ok tt, mkState (trace s) (add_file p (files s))).

Notation "x <- m ;; k" := (bind m (fun x => k))
  (at level 61, m at next level, right associativity).
Notation "m ;;; k" := (bind m (fun _ => k))
  (at level 61, right associativity).

(** How the collaborators behave during one request, and the process
    configuration the handler reads. *)
Record Env := mkEnv {
  EMAIL_RECEIVER : option string;          (* os.getenv("EMAIL_RECEIVER") *)
  env_save_ok : bool;                      (* image.save succeeds *)
  env_model : option (list YResult);       (* None: model(...) raises *)
  env_upload : option (option string);     (* None: uploader raises;
                                              Some u: result.get("secure_url") *)
  env_firebase_ok : bool;
  env_supabase_ok : bool;
  env_smtp_ok : bool
}.

Record Request := mkRequest {
  req_has_image : bool;                    (* "image" in request.files *)
  req_form_email : option string;          (* request.form.get("email") *)
  req_timestamp : string                   (* strftime("%Y%m%d_%H%M%S") *)
}.

Inductive Response :=
| RespOk (url : option string) (classes : list string)  (* 200 *)
| RespErr (e : Exn).                                     (* {"error": ...}, 500 *)

Definition status (r : Response) : nat :=
  match r with RespOk _ _ => 200 | RespErr _ => 500 end.

(** ** The helpers and the handler *)

Definition upload_path (timestamp : string) : string :=
  "uploads/upload_" ++ timestamp ++ ".jpg".

Definition result_path (timestamp : string) : string :=
  "results/result_" ++ timestamp ++ ".jpg".

(** [send_email] (lines 60-74): every failure is caught and printed. *)
Definition send_email (env : Env) (receiver : option string) (timestamp : string)
    (detected : list string) (url : option string) : M unit :=
  catch (emit (EvSendEmail receiver timestamp detected url) ;;;
         if env_smtp_ok env then ret tt else raise SMTPError)
        (fun _ => ret tt).

(** [upload_image_to_cloudinary] (lines 77-83). *)
Definition upload_image_to_cloudinary (env : Env) (image_path : string)
    : M (option string) :=
  catch (emit (EvUpload image_path) ;;;
         match env_upload env with
         | None => raise CloudinaryError
         | Some secure_url => ret secure_url
         end)
        (fun _ => ret None).

Definition image_save (env : Env) (p : string) : M unit :=
  if env_save_ok env then emit (EvSave p) ;;; write_file p else raise IOError.

Definition model_call (env : Env) (p : string) : M (list YResult) :=
  emit (EvInfer p) ;;;
  match env_model env with
  | None => raise InferenceError
  | Some results => ret results
  end.

Definition imwrite (p : string) (img : Image) : M unit :=
  emit (EvWrite p) ;;; write_file p.

Definition firebase_push (env : Env) (r : DetRecord) : M unit :=
  emit (EvFirebasePush r) ;;;
  if env_firebase_ok env then ret tt else raise FirebaseError.

Definition supabase_insert (env : Env) (r : DetRecord) : M unit :=
  emit (EvSupabaseInsert r) ;;;
  if env_supabase_ok env then ret tt else raise SupabaseError.

(** The body of [for r in results] (lines 100-143); it returns the values
    it binds to [url] and [detected_classes]. *)
Definition process_result (env : Env) (email : option string) (timestamp : string)
    (r : YResult) : M (option string * list string) :=
  match annotate r with
  | Raise e => raise e
  | Ok (img, detected_classes) =>
      let rp := result_path timestamp in
      imwrite rp img ;;;
      url <- upload_image_to_cloudinary env rp ;;
      firebase_push env (mkRec timestamp detected_classes url email) ;;;
      supabase_insert env (mkRec timestamp detected_classes url email) ;;;
      send_email env email timestamp detected_classes url ;;;
      ret (url, detected_classes)
  end.

(** The loop [for r in results]; the two Python locals [url] and
    [detected_classes] are [None] until an iteration binds them. *)
Fixpoint for_results (env : Env) (email : option string) (timestamp : string)
    (results : list YResult) (url_b : option (option string))
    (classes_b : option (list string))
    : M (option (option string) * option (list string)) :=
  match results with
  | [] => ret (url_b, classes_b)
  | r :: rs =>
      p <- process_result env email timestamp r ;;
      for_results env email timestamp rs (Some (fst p)) (Some (snd p))
  end.

(** [request.form.get("email", EMAIL_RECEIVER)] *)
Definition form_email (env : Env) (req : Request) : option string :=
  match req_form_email req with
  | Some e => Some e
  | None => EMAIL_RECEIVER env
  end.

(** The [try] block of [upload] (lines 89-145). *)
Definition upload_body (env : Env) (req : Request) : M Response :=
  (if req_has_image req then ret tt else raise KeyError) ;;;
  let email := form_email env req in
  let timestamp := req_timestamp req in
  let image_path := upload_path timestamp in
  image_save env image_path ;;;
  results <- model_call env image_path ;;
  p <- for_results env email timestamp results None None ;;
  match p with
  | (Some url, Some detected_classes) => ret (RespOk url detected_classes)
  | _ => raise UnboundLocalError
  end.

(** [upload] with the files [fs] already on disk: the final response and
    the final state. *)
Definition upload (env : Env) (req : Request) (fs : list string) : Response * State :=
  let '(o, s) := catch (upload_body env req) (fun e => ret (RespErr e))
                       (mkState [] fs) in
  match o with
  | Ok resp => (resp, s)
  | Raise e => (RespErr e, s)
  end.

(** ** Derived views used in the proofs *)

(** The value [upload_image_to_cloudinary] returns. *)
Definition uploaded_url (env : Env) : option string :=
  match env_upload env with None => None | Some u => u end.

(** The outcome of the [for r in results] loop, without its effects. *)
Fixpoint results_outcome (env : Env) (results : list YResult)
    (url_b : option (option string)) (classes_b : option (list string))
    : Outcome (option (option string) * option (list string)) :=
  match results with
  | [] => Ok (url_b, classes_b)
  | r :: rs =>
      match annotate r with
      | Raise e => Raise e
      | Ok (_, d) =>
          if env_firebase_ok env then
            if env_supabase_ok env then
              results_outcome env rs (Some (uploaded_url env)) (Some d)
            else Raise SupabaseError
          else Raise FirebaseError
      end
  end.

(** The classes an annotated result yields ([[]] when a label lookup fails). *)
Definition classes_of (r : YResult) : list string :=
  match annotate r with Ok (_, d) => d | Raise _ => [] end.

(** Replacing the behaviour of one collaborator. *)
Definition with_upload (env : Env) (u : option (option string)) : Env :=
  mkEnv (EMAIL_RECEIVER env) (env_save_ok env) (env_model env) u
        (env_firebase_ok env) (env_supabase_ok env) (env_smtp_ok env).

Definition with_smtp (env : Env) (b : bool) : Env :=
  mkEnv (EMAIL_RECEIVER env) (env_save_ok env) (env_model env) (env_upload env)
        (env_firebase_ok env) (env_supabase_ok env) b.

(** The response of [upload], without its effects. *)
Definition response_of (env : Env) (req : Request) : Response :=
  if req_has_image req then
    if env_save_ok env then
      match env_model env with
      | None => RespErr InferenceError
      | Some rs =>
          match results_outcome env rs None None with
          | Ok (Some u, Some d) => RespOk u d
          | Ok _ => RespErr UnboundLocalError
          | Raise e => RespErr e
          end
      end
    else RespErr IOError
  else RespErr KeyError.

(** A response with its url dropped. *)
Definition drop_url (r : Response) : Response :=
  match r with RespOk _ c => RespOk None c | RespErr e => RespErr e end.

Definition has_event (P : Event -> bool) (tr : list Event) : bool := existsb P tr.

Definition is_sink_or_side_effect (ev : Event) : bool :=
  match ev with
  | EvUpload _ | EvFirebasePush _ | EvSupabaseInsert _ | EvSendEmail _ _ _ _ => true
  | _ => false
  end.

(** Every Firebase push of a trace has its Supabase insert, and back. *)
Definition sink_paired (tr : list Event) : Prop :=
  forall R, In (EvFirebasePush R) tr <-> In (EvSupabaseInsert R) tr.

(** The files of a state: every file of [X] is kept, every [EvWrite] has its
    file, and every file comes from [Y] or is the result image. *)
Definition files_inv (X Y : list string) (ts : string) (s : State) : Prop :=
  (forall p, In p X -> In p (files s)) /\
  (forall p, In (EvWrite p) (trace s) -> In p (files s)) /\
  (forall p, In p (files s) -> In p Y \/ p = result_path ts).

(** What the inner loop draws for one box whose label resolves: the
    rectangle in the category colour, then the label text 5 pixels above
    the top-left corner. *)
Definition box_ops (nm : list (nat * string)) (b : Box) : list DrawOp :=
  match dict_get nm (box_cls b) with
  | None => []
  | Some class_name =>
      let '(x1, y1, x2, y2) := box_xyxy b in
      let conf := match box_conf b with Some c => c | None => 0 end in
      let color := color_of (category_of class_name) in
      [DrawRect (x1, y1) (x2, y2) color 2;
       DrawLabel class_name conf (x1, (y1 - 5)%Z) color]
  end.

(** The calls one loop iteration makes when every step succeeds. *)
Definition result_events (env : Env) (email : option string) (ts : string)
    (d : list string) : list Event :=
  let rp := result_path ts in
  let R := mkRec ts d (uploaded_url env) email in
  [EvWrite rp; EvUpload rp; EvFirebasePush R; EvSupabaseInsert R;
   EvSendEmail email ts d (uploaded_url env)].

(** Every record and email of a request carries its timestamp, its email
    and the url the upload returned. *)
Definition event_consistent (env : Env) (email : option string) (ts : string)
    (ev : Event) : Prop :=
  match ev with
  | EvFirebasePush R | EvSupabaseInsert R =>
      rec_timestamp R = ts /\ rec_url R = uploaded_url env /\ rec_email R = email
  | EvSendEmail rcv t _ u => rcv = email /\ t = ts /\ u = uploaded_url env
  | _ => True
  end.

Definition is_save_or_infer (ev : Event) : bool :=
  match ev with EvSave _ | EvInfer _ => true | _ => false end.

Definition is_email (ev : Event) : bool :=
  match ev with EvSendEmail _ _ _ _ => true | _ => false end.

(** ** Concrete inputs *)

Definition img0 : Image := mkImage 480 640 [].

Definition r_ic : YResult :=
  mkYResult img0 [(0, "IC-defect"); (1, "LED")]
            [mkBox 0 (10, 10, 50, 50)%Z (Some 92); mkBox 1 (60, 5, 90, 40)%Z None].

Definition r_empty : YResult := mkYResult img0 [(0, "IC-defect")] [].

Definition req0 : Request := mkRequest true (Some "qa@example.com") "20240101_120000".

Definition env_ok (results : list YResult) : Env :=
  mkEnv (Some "ops@example.com") true (Some results)
        (Some (Some "https://res.cloudinary.com/x.jpg")) true true true.

(** ** Unfolding lemmas *)

Lemma upload_image_to_cloudinary_run env p s :
  upload_image_to_cloudinary env p s
  = (Ok (uploaded_url env), mkState (trace s ++ [EvUpload p]) (files s)).
Proof. unfold upload_image_to_cloudinary, uploaded_url; destruct (env_upload env); reflexivity. Qed.

Lemma send_email_run env rcv ts d u s :
  send_email env rcv ts d u s
  = (Ok tt, mkState (trace s ++ [EvSendEmail rcv ts d u]) (files s)).
Proof. unfold send_email; destruct (env_smtp_ok env); reflexivity. Qed.

Lemma process_result_run env email ts r s :
  process_result env email ts r s =
  match annotate r with
  | Raise e => (Raise e, s)
  | Ok (_, d) =>
      let rp := result_path ts in
      let R := mkRec ts d (uploaded_url env) email in
      let tr0 := (trace s ++ [EvWrite rp; EvUpload rp; EvFirebasePush R])%list in
      let fs' := add_file rp (files s) in
      if env_firebase_ok env then
        if env_supabase_ok env then
          (Ok (uploaded_url env, d),
           mkState (tr0 ++ [EvSupabaseInsert R; EvSendEmail email ts d (uploaded_url env)]) fs')
        else (Raise SupabaseError, mkState (tr0 ++ [EvSupabaseInsert R]) fs')
      else (Raise FirebaseError, mkState tr0 fs')
  end.
Proof.
  unfold process_result.
  destruct (annotate r) as [[img d]|e]; [|reflexivity].
  unfold bind at 1, imwrite, bind at 1, emit, write_file; simpl.
  unfold bind at 1; rewrite upload_image_to_cloudinary_run; simpl.
  unfold firebase_push, supabase_insert, bind, emit; simpl.
  destruct (env_firebase_ok env), (env_supabase_ok env); simpl;
    rewrite ?send_email_run; simpl; repeat rewrite <- app_assoc; reflexivity.
Qed.

Lemma upload_run env req fs :
  upload env req fs =
  if req_has_image req then
    if env_save_ok env then
      let up := upload_path (req_timestamp req) in
      let s1 := mkState [EvSave up; EvInfer up] (add_file up fs) in
      match env_model env with
      | None => (RespErr InferenceError, s1)
      | Some rs =>
          match for_results env (form_email env req) (req_timestamp req) rs None None s1 with
          | (Ok (Some u, Some d), s2) => (RespOk u d, s2)
          | (Ok _, s2) => (RespErr UnboundLocalError, s2)
          | (Raise e, s2) => (RespErr e, s2)
          end
      end
    else (RespErr IOError, mkState [] fs)
  else (RespErr KeyError, mkState [] fs).
Proof.
  unfold upload, catch, upload_body, image_save, model_call, bind, ret, raise,
    emit, write_file.
  destruct (req_has_image req); [|reflexivity].
  destruct (env_save_ok env); [|reflexivity].
  destruct (env_model env) as [rs|]; [|reflexivity].
  cbn [trace files app].
  destruct (for_results _ _ _ rs None None _) as [[[[u|] [d|]]|e] s2]; reflexivity.
Qed.

Lemma for_results_cons env email ts r rs ub cb s :
  for_results env email ts (r :: rs) ub cb s =
  match process_result env email ts r s with
  | (Ok p, s') => for_results env email ts rs (Some (fst p)) (Some (snd p)) s'
  | (Raise e, s') => (Raise e, s')
  end.
Proof. reflexivity. Qed.

Lemma for_results_outcome env email ts rs :
  forall ub cb s, fst (for_results env email ts rs ub cb s) = results_outcome env rs ub cb.
Proof.
  induction rs as [|r rs IH]; intros ub cb s; [reflexivity|].
  rewrite for_results_cons, process_result_run; simpl.
  destruct (annotate r) as [[img d]|e]; [|reflexivity].
  destruct (env_firebase_ok env), (env_supabase_ok env); simpl; auto.
Qed.

Section LoopInvariant.
Variables (env : Env) (email : option string) (ts : string).
Variable Inv : State -> Prop.
Hypothesis step : forall r s, Inv s -> Inv (snd (process_result env email ts r s)).

Lemma for_results_invariant rs :
  forall ub cb s, Inv s -> Inv (snd (for_results env email ts rs ub cb s)).
Proof.
  induction rs as [|r rs IH]; intros ub cb s Hs; [exact Hs|].
  rewrite for_results_cons.
  pose proof (step r s Hs) as Hr.
  destruct (process_result env email ts r s) as [[p|e] s']; simpl in *; auto.
Qed.
End LoopInvariant.

Lemma upload_response env req fs : fst (upload env req fs) = response_of env req.
Proof.
  rewrite upload_run; unfold response_of.
  destruct (req_has_image req), (env_save_ok env); try reflexivity.
  destruct (env_model env) as [rs|]; [|reflexivity]; simpl.
  pose proof (for_results_outcome env (form_email env req) (req_timestamp req) rs None None
    (mkState [EvSave (upload_path (req_timestamp req)); EvInfer (upload_path (req_timestamp req))]
             (add_file (upload_path (req_timestamp req)) fs))) as H.
  destruct (for_results _ _ _ _ _ _ _) as [o s2]; simpl in H; subst o.
  destruct (results_outcome env rs None None) as [[[u|] [d|]]|e]; reflexivity.
Qed.

Lemma results_outcome_ext env env' rs :
  env_firebase_ok env = env_firebase_ok env' ->
  env_supabase_ok env = env_supabase_ok env' ->
  uploaded_url env = uploaded_url env' ->
  forall ub cb, results_outcome env rs ub cb = results_outcome env' rs ub cb.
Proof.
  intros Hf Hs Hu; induction rs as [|r rs IH]; intros ub cb; [reflexivity|]; simpl.
  rewrite Hf, Hs, Hu.
  destruct (annotate r) as [[img d]|e]; auto.
  destruct (env_firebase_ok env'), (env_supabase_ok env'); auto.
Qed.

Lemma in_add_file p q fs : In p (add_file q fs) <-> In p fs \/ p = q.
Proof.
  unfold add_file; destruct (existsb (String.eqb q) fs) eqn:E.
  - apply existsb_exists in E as [x [Hx Hq]]; apply String.eqb_eq in Hq; subst x.
    split; [auto|intros [H|H]; subst; auto].
  - rewrite in_app_iff; simpl; split; intros [H|H]; auto; destruct H; auto.
    contradiction.
Qed.

(** Each successful step of the inner loop appends the looked-up label. *)
Lemma annotate_loop_labels nm bs :
  forall img acc img' out, annotate_loop nm img acc bs = Ok (img', out) ->
  exists ls, out = (acc ++ ls)%list /\
             Forall2 (fun b l => dict_get nm (box_cls b) = Some l) bs ls.
Proof.
  induction bs as [|b bs IH]; intros img acc img' out H; simpl in H.
  - injection H as <- <-; exists []; rewrite app_nil_r; auto.
  - destruct (dict_get nm (box_cls b)) as [c|] eqn:E; [|discriminate].
    destruct (box_xyxy b) as [[[x1 y1] x2] y2].
    apply IH in H as [ls [-> Hls]].
    exists (c :: ls); split; [rewrite <- app_assoc; reflexivity|constructor; auto].
Qed.

Lemma annotate_loop_total nm bs ls :
  Forall2 (fun b l => dict_get nm (box_cls b) = Some l) bs ls ->
  forall img acc, exists img', annotate_loop nm img acc bs = Ok (img', (acc ++ ls)%list).
Proof.
  induction 1 as [|b l bs ls Hb _ IH]; intros img acc; simpl.
  - exists img; rewrite app_nil_r; reflexivity.
  - rewrite Hb; destruct (box_xyxy b) as [[[x1 y1] x2] y2].
    replace (acc ++ l :: ls)%list with ((acc ++ [l]) ++ ls)%list
      by (rewrite <- app_assoc; reflexivity).
    apply IH.
Qed.


Lemma results_outcome_no_url env env' rs :
  env_firebase_ok env = env_firebase_ok env' ->
  env_supabase_ok env = env_supabase_ok env' ->
  uploaded_url env = None ->
  forall ub cb,
  results_outcome env rs (option_map (fun _ : option string => None) ub) cb =
  match results_outcome env' rs ub cb with
  | Ok (ub', cb') => Ok (option_map (fun _ : option string => None) ub', cb')
  | Raise e => Raise e
  end.
Proof.
  intros Hf Hs Hu; induction rs as [|r rs IH]; intros ub cb; [reflexivity|]; simpl.
  rewrite Hf, Hs.
  destruct (annotate r) as [[img d]|e]; [|reflexivity].
  destruct (env_firebase_ok env'), (env_supabase_ok env'); try reflexivity.
  specialize (IH (Some (uploaded_url env')) (Some d)); simpl in IH.
  rewrite Hu; exact IH.
Qed.




Lemma process_result_sink_paired env email ts r s :
  env_firebase_ok env = true -> env_supabase_ok env = true ->
  sink_paired (trace s) -> sink_paired (trace (snd (process_result env email ts r s))).
Proof.
  intros Hf Hs H; rewrite process_result_run.
  destruct (annotate r) as [[img d]|e]; [|exact H].
  rewrite Hf, Hs; simpl; intros R; specialize (H R).
  rewrite !in_app_iff; simpl; intuition congruence.
Qed.

Ltac no_event_in_trace :=
  cbn [fst snd trace]; repeat split; intros;
  repeat match goal with H : exists _, _ |- _ => destruct H end;
  simpl in *; intuition discriminate.

Lemma process_result_files env email ts r s :
  (forall p, In p (files s) -> In p (files (snd (process_result env email ts r s)))) /\
  (forall p, In p (files (snd (process_result env email ts r s))) ->
             In p (files s) \/ p = result_path ts) /\
  (forall p, In (EvWrite p) (trace (snd (process_result env email ts r s))) ->
             In (EvWrite p) (trace s) \/
             In p (files (snd (process_result env email ts r s)))).
Proof.
  rewrite process_result_run.
  destruct (annotate r) as [[img d]|e]; [|simpl; auto].
  cbv zeta.
  destruct (env_firebase_ok env), (env_supabase_ok env); simpl;
    repeat split; intros p H;
    rewrite ?in_add_file, ?in_app_iff in *; simpl in *; intuition congruence.
Qed.

Lemma process_result_files_inv env email ts X Y r s :
  files_inv X Y ts s -> files_inv X Y ts (snd (process_result env email ts r s)).
Proof.
  intros [HX [HW HY]].
  destruct (process_result_files env email ts r s) as [Hmono [Hsub Hw]].
  split; [|split].
  - intros p Hp; apply Hmono, HX, Hp.
  - intros p Hp; destruct (Hw p Hp) as [H|H]; [apply Hmono, HW, H|exact H].
  - intros p Hp; destruct (Hsub p Hp) as [H|H]; [apply HY, H|right; exact H].
Qed.

Lemma annotate_loop_missing nm bs b :
  In b bs -> dict_get nm (box_cls b) = None ->
  forall img acc, exists e, annotate_loop nm img acc bs = Raise e.
Proof.
  induction bs as [|b' bs IH]; intros Hin Hb img acc; [destruct Hin|]; simpl.
  destruct Hin as [<- | Hin].
  - rewrite Hb; eauto.
  - destruct (dict_get nm (box_cls b')); [|eauto].
    destruct (box_xyxy b') as [[[x1 y1] x2] y2]; apply IH; auto.
Qed.

Lemma results_outcome_missing env rs r :
  In r rs -> (exists e, annotate r = Raise e) ->
  forall ub cb, exists e', results_outcome env rs ub cb = Raise e'.
Proof.
  induction rs as [|r' rs IH]; intros Hin [e He] ub cb; [destruct Hin|]; simpl.
  destruct Hin as [<- | Hin]; [rewrite He; eauto|].
  destruct (annotate r') as [[img d]|e']; [|eauto].
  destruct (env_firebase_ok env), (env_supabase_ok env); eauto.
Qed.


(** ** Claims *)

(** C5: the category of a detection is a function of its label alone:
    [Defect] exactly when the label is one of [defect_classes], and
    [Non-Defect] for every other label, unseen labels included. *)
Theorem C5_category_label_driven (label : string) :
  (category_of label = Defect <-> In label defect_classes) /\
  (category_of label = NonDefect <-> ~ In label defect_classes).
Proof.
  unfold category_of.
  destruct (existsb (String.eqb label) defect_classes) eqn:E.
  - apply existsb_exists in E as [x [Hx Hl]]; apply String.eqb_eq in Hl; subst x.
    split; split; intros H; try discriminate; auto; contradiction.
  - assert (Hn : ~ In label defect_classes).
    { intros Hin. assert (existsb (String.eqb label) defect_classes = true) as E'
        by (apply existsb_exists; exists label; split; [exact Hin|apply String.eqb_refl]).
      congruence. }
    split; split; intros H; try discriminate; auto; contradiction.
Qed.

(** C6: the annotation loop yields one label per detection, in the order
    of the detections: it succeeds with [classes] exactly when [classes]
    lists, position by position, the label [r.names[box.cls]] of each box. *)
Theorem C6_annotate_one_label_per_detection (r : YResult) :
  (forall img classes, annotate r = Ok (img, classes) ->
     length classes = length (res_boxes r) /\
     Forall2 (fun b l => dict_get (names r) (box_cls b) = Some l) (res_boxes r) classes) /\
  (forall classes,
     Forall2 (fun b l => dict_get (names r) (box_cls b) = Some l) (res_boxes r) classes ->
     exists img, annotate r = Ok (img, classes)).
Proof.
  unfold annotate; split.
  - intros img classes H.
    apply annotate_loop_labels in H as [ls [-> Hls]]; simpl.
    split; [symmetry; exact (Forall2_length Hls)|exact Hls].
  - intros classes H.
    exact (annotate_loop_total _ _ _ H (orig_img r) []).
Qed.

Lemma C6_annotate_one_label_per_detection_witness :
  exists img, annotate r_ic = Ok (img, ["IC-defect"; "LED"]) /\
              length ["IC-defect"; "LED"] = length (res_boxes r_ic).
Proof.
  destruct (proj2 (C6_annotate_one_label_per_detection r_ic) ["IC-defect"; "LED"])
    as [img H].
  { simpl; repeat constructor. }
  exists img; split; [exact H|].
  exact (proj1 (proj1 (C6_annotate_one_label_per_detection r_ic) img _ H)).
Defined.

(** C3: when decoding or inference raises inside [model(image_path)], the
    response is an error (status 500) and no upload, no write to either
    store and no email happen. *)
Theorem C3_inference_failure_short_circuits (env : Env) (req : Request) (fs : list string) :
  env_model env = None ->
  (exists e, fst (upload env req fs) = RespErr e) /\
  status (fst (upload env req fs)) = 500 /\
  has_event is_sink_or_side_effect (trace (snd (upload env req fs))) = false.
Proof.
  intros H; rewrite upload_run, H.
  destruct (req_has_image req), (env_save_ok env); simpl; eauto.
Qed.

Lemma C3_inference_failure_short_circuits_witness :
  env_model (mkEnv None true None (Some (Some "u")) true true true) = None /\
  status (fst (upload (mkEnv None true None (Some (Some "u")) true true true) req0 [])) = 500 /\
  has_event is_sink_or_side_effect
    (trace (snd (upload (mkEnv None true None (Some (Some "u")) true true true) req0 []))) = false.
Proof.
  split; [reflexivity|].
  exact (proj2 (C3_inference_failure_short_circuits
                  (mkEnv None true None (Some (Some "u")) true true true) req0 [] eq_refl)).
Defined.

(** C10: when the model returns no result at all, the loop body never
    binds [url] and [detected_classes]; reading them raises and the
    endpoint answers with status 500. *)
Theorem C10_empty_results_500 (env : Env) (req : Request) (fs : list string) :
  env_model env = Some [] ->
  status (fst (upload env req fs)) = 500 /\
  (req_has_image req = true -> env_save_ok env = true ->
   fst (upload env req fs) = RespErr UnboundLocalError).
Proof.
  intros H; rewrite upload_response; unfold response_of; rewrite H; simpl.
  destruct (req_has_image req), (env_save_ok env); simpl; split; auto; discriminate.
Qed.

Lemma C10_empty_results_500_witness :
  status (fst (upload (env_ok []) req0 [])) = 500 /\
  fst (upload (env_ok []) req0 []) = RespErr UnboundLocalError.
Proof.
  destruct (C10_empty_results_500 (env_ok []) req0 [] eq_refl) as [H1 H2].
  split; [exact H1|apply H2; reflexivity].
Defined.

(** C7: a failure inside [send_email] is caught there and is not fatal:
    [send_email] always returns normally, and the response of a request
    whose email fails is the one the request gets when the email succeeds,
    with the same [classes] and [url]. *)
Theorem C7_notify_failure_non_fatal (env : Env) (req : Request) (fs : list string) :
  env_smtp_ok env = false ->
  (forall rcv ts d url s, fst (send_email env rcv ts d url s) = Ok tt) /\
  fst (upload env req fs) = fst (upload (with_smtp env true) req fs).
Proof.
  intros _; split.
  - intros; rewrite send_email_run; reflexivity.
  - rewrite !upload_response; unfold response_of; cbn [with_smtp env_model env_save_ok].
    destruct (req_has_image req), (env_save_ok env); try reflexivity.
    destruct (env_model env) as [rs|]; [|reflexivity].
    rewrite (results_outcome_ext env (with_smtp env true) rs eq_refl eq_refl eq_refl).
    reflexivity.
Qed.

Lemma C7_notify_failure_non_fatal_witness :
  env_smtp_ok (with_smtp (env_ok [r_ic]) false) = false /\
  fst (upload (with_smtp (env_ok [r_ic]) false) req0 []) =
    RespOk (Some "https://res.cloudinary.com/x.jpg") ["IC-defect"; "LED"].
Proof.
  split; [reflexivity|].
  rewrite (proj2 (C7_notify_failure_non_fatal (with_smtp (env_ok [r_ic]) false) req0 []
                    eq_refl)).
  vm_compute; reflexivity.
Defined.

(** C4 (as stated): when the Cloudinary upload fails, the response still
    carries the classes with a null url.  It does not when a later step
    raises: here the upload fails and the Firebase push raises, and the
    response is the 500 error. *)
Lemma C4_upload_failure_counterexample :
  env_upload (mkEnv None true (Some [r_ic]) None false true true) = None /\
  fst (upload (mkEnv None true (Some [r_ic]) None false true true) req0 []) =
    RespErr FirebaseError.
Proof. split; vm_compute; reflexivity. Qed.

(** C4 (amended): a failing Cloudinary upload is caught inside
    [upload_image_to_cloudinary], which returns [None]; the failure alone
    changes nothing else in the outcome: the response is the one the
    request gets when the upload succeeds, with the url dropped. *)
Theorem C4_upload_failure_degrades (env : Env) (req : Request) (fs : list string)
    (u : string) :
  env_upload env = None ->
  (forall p s, upload_image_to_cloudinary env p s =
               (Ok None, mkState (trace s ++ [EvUpload p]) (files s))) /\
  fst (upload env req fs) = drop_url (fst (upload (with_upload env (Some (Some u))) req fs)).
Proof.
  intros H; split.
  - intros p s; rewrite upload_image_to_cloudinary_run; unfold uploaded_url; rewrite H.
    reflexivity.
  - rewrite !upload_response; unfold response_of; cbn [with_upload env_model env_save_ok].
    destruct (req_has_image req), (env_save_ok env); try reflexivity.
    destruct (env_model env) as [rs|]; [|reflexivity].
    assert (Hu : uploaded_url env = None) by (unfold uploaded_url; rewrite H; reflexivity).
    pose proof (results_outcome_no_url env (with_upload env (Some (Some u))) rs
                  eq_refl eq_refl Hu None None) as E; simpl in E; rewrite E.
    destruct (results_outcome (with_upload env (Some (Some u))) rs None None)
      as [[[x|] [d|]]|e]; reflexivity.
Qed.

Lemma C4_upload_failure_degrades_witness :
  env_upload (mkEnv None true (Some [r_ic]) None true true true) = None /\
  fst (upload (mkEnv None true (Some [r_ic]) None true true true) req0 []) =
    RespOk None ["IC-defect"; "LED"].
Proof.
  split; [reflexivity|].
  rewrite (proj2 (C4_upload_failure_degrades (mkEnv None true (Some [r_ic]) None true true true)
                    req0 [] "https://res.cloudinary.com/x.jpg" eq_refl)).
  vm_compute; reflexivity.
Defined.




(** C1 (as stated): the two store writes are independent, so a failing
    Firebase push still lets the Supabase insert run with the same record.
    It does not: the Firebase push raises, the exception leaves the loop
    body, and no Supabase insert is made. *)
Lemma C1_firebase_failure_skips_supabase :
  let env := mkEnv None true (Some [r_ic]) (Some (Some "u")) false true true in
  In (EvFirebasePush (mkRec "20240101_120000" ["IC-defect"; "LED"] (Some "u")
                            (Some "qa@example.com")))
     (trace (snd (upload env req0 []))) /\
  (forall R, ~ In (EvSupabaseInsert R) (trace (snd (upload env req0 [])))) /\
  fst (upload env req0 []) = RespErr FirebaseError.
Proof.
  cbv zeta; split; [vm_compute; tauto|split; [|vm_compute; reflexivity]].
  intros R; vm_compute; intuition discriminate.
Qed.

(** C1 (amended): the writes are chained, not independent.  When the
    Firebase push raises, no Supabase insert is made and a request that
    reached the push answers with the Firebase error (500).  When the push
    succeeds, the Supabase insert follows with the same record.  Every
    Supabase insert comes with its Firebase push, which stays in place
    when the insert raises, and the request then answers with the
    Supabase error (500). *)
Theorem C1_sink_writes_chained (env : Env) (req : Request) (fs : list string) :
  (env_firebase_ok env = false ->
     (forall R, ~ In (EvSupabaseInsert R) (trace (snd (upload env req fs)))) /\
     ((exists R, In (EvFirebasePush R) (trace (snd (upload env req fs)))) ->
        fst (upload env req fs) = RespErr FirebaseError)) /\
  (env_firebase_ok env = true ->
     forall R, In (EvFirebasePush R) (trace (snd (upload env req fs))) ->
               In (EvSupabaseInsert R) (trace (snd (upload env req fs)))) /\
  (forall R, In (EvSupabaseInsert R) (trace (snd (upload env req fs))) ->
     In (EvFirebasePush R) (trace (snd (upload env req fs))) /\
     (env_supabase_ok env = false -> fst (upload env req fs) = RespErr SupabaseError)).
Proof.
  rewrite upload_run.
  destruct (req_has_image req); [|no_event_in_trace].
  destruct (env_save_ok env); [|no_event_in_trace].
  destruct (env_model env) as [rs|]; [|no_event_in_trace].
  destruct rs as [|r rs]; [no_event_in_trace|].
  cbv zeta; rewrite for_results_cons, process_result_run.
  destruct (annotate r) as [[img d]|e]; [|no_event_in_trace].
  cbv zeta; cbn [trace files].
  destruct (env_firebase_ok env) eqn:Hf; [destruct (env_supabase_ok env) eqn:Hs|].
  - match goal with
    | |- context [for_results _ _ _ rs ?ub ?cb ?st] =>
        assert (P2 : sink_paired (trace st))
          by (intros R; simpl; rewrite ?in_app_iff; simpl; intuition congruence);
        pose proof (for_results_invariant env (form_email env req) (req_timestamp req)
                      (fun s => sink_paired (trace s))
                      (fun r s => process_result_sink_paired env _ _ r s Hf Hs)
                      rs ub cb st P2) as P;
        destruct (for_results _ _ _ rs ub cb st) as [o s3]; simpl in P
    end.
    assert (Hpair : forall R, In (EvFirebasePush R) (trace s3) <-> In (EvSupabaseInsert R) (trace s3))
      by exact P.
    destruct o as [[[u|] [d'|]]|e]; simpl;
      (split; [discriminate|split; [intros _ R; apply Hpair|
                                    intros R HR; split; [apply Hpair; exact HR|discriminate]]]).
  - simpl; split; [discriminate|split; [intros _ R HR; simpl in *; intuition congruence|]].
    intros R HR; simpl in *;
    split; [intuition congruence|reflexivity].
  - simpl; split; [|split; [discriminate|]].
    + intros _; split; [|reflexivity].
      intros R HR; simpl in HR; intuition discriminate.
    + intros R HR; simpl in HR; intuition discriminate.
Qed.

Lemma C1_sink_writes_chained_witness :
  let env := mkEnv None true (Some [r_ic]) (Some (Some "u")) true false true in
  let R := mkRec "20240101_120000" ["IC-defect"; "LED"] (Some "u") (Some "qa@example.com") in
  In (EvSupabaseInsert R) (trace (snd (upload env req0 []))) /\
  In (EvFirebasePush R) (trace (snd (upload env req0 []))) /\
  fst (upload env req0 []) = RespErr SupabaseError.
Proof.
  cbv zeta.
  assert (HI : In (EvSupabaseInsert (mkRec "20240101_120000" ["IC-defect"; "LED"] (Some "u")
                                           (Some "qa@example.com")))
                  (trace (snd (upload (mkEnv None true (Some [r_ic]) (Some (Some "u"))
                                             true false true) req0 []))))
    by (vm_compute; tauto).
  destruct (proj2 (proj2 (C1_sink_writes_chained
                            (mkEnv None true (Some [r_ic]) (Some (Some "u")) true false true)
                            req0 [])) _ HI) as [HP HE].
  split; [exact HI|split; [exact HP|exact (HE eq_refl)]].
Defined.

(** C8 (as stated): the saved upload and the rendered result are removed
    before the request completes, on every path.  Neither is ever removed:
    a successful request leaves both files, and a request whose inference
    fails leaves the saved upload. *)
Lemma C8_files_left_behind_counterexample :
  files (snd (upload (env_ok [r_ic]) req0 [])) =
    [upload_path "20240101_120000"; result_path "20240101_120000"] /\
  files (snd (upload (mkEnv None true None (Some (Some "u")) true true true) req0 [])) =
    [upload_path "20240101_120000"].
Proof. split; vm_compute; reflexivity. Qed.

(** C8 (amended): [upload] never removes a file.  Files on disk before
    the request stay; once saved, [uploads/upload_<timestamp>.jpg] stays
    whatever the outcome; every rendered [results/result_<timestamp>.jpg]
    stays; and these two are the only files a request adds. *)
Theorem C8_request_files_never_removed (env : Env) (req : Request) (fs : list string) :
  (forall p, In p fs -> In p (files (snd (upload env req fs)))) /\
  (req_has_image req = true -> env_save_ok env = true ->
     In (upload_path (req_timestamp req)) (files (snd (upload env req fs)))) /\
  (forall p, In (EvWrite p) (trace (snd (upload env req fs))) ->
     In p (files (snd (upload env req fs)))) /\
  (forall p, In p (files (snd (upload env req fs))) ->
     In p fs \/ p = upload_path (req_timestamp req) \/ p = result_path (req_timestamp req)).
Proof.
  rewrite upload_run.
  destruct (req_has_image req);
    [|simpl; repeat split; intros; simpl in *; auto; try tauto; discriminate].
  destruct (env_save_ok env);
    [|simpl; repeat split; intros; simpl in *; auto; try tauto; discriminate].
  cbv zeta.
  set (up := upload_path (req_timestamp req)).
  set (s1 := mkState [EvSave up; EvInfer up] (add_file up fs)).
  assert (I1 : files_inv (add_file up fs) (add_file up fs) (req_timestamp req) s1).
  { split; [|split]; simpl; auto.
    intros p H; intuition discriminate. }
  assert (Hfin : forall s, files_inv (add_file up fs) (add_file up fs) (req_timestamp req) s ->
    (forall p, In p fs -> In p (files s)) /\
    (true = true -> true = true -> In up (files s)) /\
    (forall p, In (EvWrite p) (trace s) -> In p (files s)) /\
    (forall p, In p (files s) -> In p fs \/ p = up \/ p = result_path (req_timestamp req))).
  { intros s [HX [HW HY]]; split; [|split; [|split]].
    - intros p Hp; apply HX, in_add_file; auto.
    - intros _ _; apply HX, in_add_file; auto.
    - exact HW.
    - intros p Hp; destruct (HY p Hp) as [H|H]; [apply in_add_file in H; tauto|tauto]. }
  destruct (env_model env) as [rs|]; [|exact (Hfin s1 I1)].
  pose proof (for_results_invariant env (form_email env req) (req_timestamp req)
                (files_inv (add_file up fs) (add_file up fs) (req_timestamp req))
                (fun r s => process_result_files_inv env _ _ _ _ r s)
                rs None None s1 I1) as I2.
  destruct (for_results _ _ _ rs None None s1) as [[[[u|] [d|]]|e] s2];
    exact (Hfin s2 I2).
Qed.

Lemma C8_request_files_never_removed_witness :
  In (upload_path "20240101_120000")
     (files (snd (upload (mkEnv None true None (Some (Some "u")) true true true) req0 []))).
Proof.
  exact (proj1 (proj2 (C8_request_files_never_removed
                         (mkEnv None true None (Some (Some "u")) true true true) req0 []))
           eq_refl eq_refl).
Defined.

(** C9 (as stated): with zero detections the response is [classes = []]
    and both stores receive a record with empty classes.  Not when the
    Firebase push raises: the response is then the 500 error and Supabase
    receives nothing. *)
Lemma C9_zero_detections_counterexample :
  let env := mkEnv None true (Some [r_empty]) (Some (Some "u")) false true true in
  res_boxes r_empty = [] /\
  fst (upload env req0 []) = RespErr FirebaseError /\
  (forall R, ~ In (EvSupabaseInsert R) (trace (snd (upload env req0 [])))).
Proof.
  cbv zeta; split; [reflexivity|split; [vm_compute; reflexivity|]].
  intros R; vm_compute; intuition discriminate.
Qed.

(** C9 (amended): for an image whose single model result has zero boxes,
    the upload is still attempted and the Firebase push receives a record
    with empty classes and the upload's url; the Supabase insert receives
    the same record when the push succeeds; the response is
    [{classes: [], url}] when both writes succeed and a 500 error when
    either raises. *)
Theorem C9_zero_detections (env : Env) (req : Request) (fs : list string) (r : YResult) :
  req_has_image req = true -> env_save_ok env = true ->
  env_model env = Some [r] -> res_boxes r = [] ->
  In (EvUpload (result_path (req_timestamp req))) (trace (snd (upload env req fs))) /\
  In (EvFirebasePush (mkRec (req_timestamp req) [] (uploaded_url env) (form_email env req)))
     (trace (snd (upload env req fs))) /\
  (env_firebase_ok env = true ->
     In (EvSupabaseInsert (mkRec (req_timestamp req) [] (uploaded_url env) (form_email env req)))
        (trace (snd (upload env req fs)))) /\
  (env_firebase_ok env = true -> env_supabase_ok env = true ->
     fst (upload env req fs) = RespOk (uploaded_url env) []) /\
  (env_firebase_ok env = false \/ env_supabase_ok env = false ->
     status (fst (upload env req fs)) = 500) /\
  (env_firebase_ok env = false ->
     forall R, ~ In (EvSupabaseInsert R) (trace (snd (upload env req fs)))).
Proof.
  intros Hi Hs Hm Hb.
  rewrite upload_run, Hi, Hs, Hm; cbv zeta.
  rewrite for_results_cons, process_result_run.
  assert (A : annotate r = Ok (orig_img r, [])) by (unfold annotate; rewrite Hb; reflexivity).
  rewrite A; cbv zeta.
  destruct (env_firebase_ok env), (env_supabase_ok env); simpl;
    repeat split; intros; try tauto; try discriminate; try reflexivity;
    try (destruct H; discriminate); try (simpl in *; intuition discriminate).
Qed.

Lemma C9_zero_detections_witness :
  fst (upload (env_ok [r_empty]) req0 []) = RespOk (Some "https://res.cloudinary.com/x.jpg") [].
Proof.
  exact (proj1 (proj2 (proj2 (proj2 (C9_zero_detections (env_ok [r_empty]) req0 [] r_empty
                                        eq_refl eq_refl eq_refl eq_refl))))
           eq_refl eq_refl).
Defined.

(** ** Further properties of [upload] and its helpers *)

Lemma annotate_loop_draws nm bs :
  forall img acc img' out, annotate_loop nm img acc bs = Ok (img', out) ->
  img_h img' = img_h img /\ img_w img' = img_w img /\
  img_ops img' = (img_ops img ++ flat_map (box_ops nm) bs)%list.
Proof.
  induction bs as [|b bs IH]; intros img acc img' out H; simpl in H.
  - injection H as <- _; rewrite app_nil_r; auto.
  - unfold box_ops at 1; simpl.
    destruct (dict_get nm (box_cls b)) as [c|]; [|discriminate].
    destruct (box_xyxy b) as [[[x1 y1] x2] y2].
    apply IH in H as [Hh [Hw Hops]]; simpl in *.
    rewrite Hh, Hw, Hops, <- !app_assoc; auto.
Qed.

(** The annotation of a result keeps the canvas size and draws, box after
    box, a 2-pixel rectangle in the colour of the label's category and the
    label [name (conf)] at [(x1, y1 - 5)] (confidence 0 when the model
    gives none), on top of what the original image already holds. *)
Theorem annotate_draws_each_box (r : YResult) (img : Image) (classes : list string) :
  annotate r = Ok (img, classes) ->
  img_h img = img_h (orig_img r) /\ img_w img = img_w (orig_img r) /\
  img_ops img = (img_ops (orig_img r) ++ flat_map (box_ops (names r)) (res_boxes r))%list.
Proof. unfold annotate; apply annotate_loop_draws. Qed.

Lemma annotate_draws_each_box_witness :
  exists img, annotate r_ic = Ok (img, ["IC-defect"; "LED"]) /\
  img_ops img =
    [DrawRect (10, 10)%Z (50, 50)%Z (0, 0, 255) 2;
     DrawLabel "IC-defect" 92 (10, 5)%Z (0, 0, 255);
     DrawRect (60, 5)%Z (90, 40)%Z (0, 255, 0) 2;
     DrawLabel "LED" 0 (60, 0)%Z (0, 255, 0)].
Proof.
  eexists; split; [reflexivity|].
  exact (proj2 (proj2 (annotate_draws_each_box r_ic _ _ eq_refl))).
Defined.

(** A request without an ["image"] file part fails with KeyError before
    anything happens: no call is made and no file is created. *)
Theorem upload_missing_image (env : Env) (req : Request) (fs : list string) :
  req_has_image req = false ->
  upload env req fs = (RespErr KeyError, mkState [] fs).
Proof. intros H; rewrite upload_run, H; reflexivity. Qed.

Lemma upload_missing_image_witness :
  upload (env_ok [r_ic]) (mkRequest false None "t") ["a.jpg"] =
    (RespErr KeyError, mkState [] ["a.jpg"]).
Proof. exact (upload_missing_image (env_ok [r_ic]) (mkRequest false None "t") ["a.jpg"] eq_refl). Defined.

(** When saving the uploaded image fails, the request fails with the save
    error (status 500) before the model is called: no external call
    (model, Cloudinary, Firebase, Supabase, SMTP) is made. *)
Theorem upload_save_failure (env : Env) (req : Request) (fs : list string) :
  req_has_image req = true -> env_save_ok env = false ->
  fst (upload env req fs) = RespErr IOError /\ trace (snd (upload env req fs)) = [].
Proof. intros Hi Hs; rewrite upload_run, Hi, Hs; split; reflexivity. Qed.

Lemma upload_save_failure_witness :
  fst (upload (mkEnv None false (Some [r_ic]) None true true true) req0 []) = RespErr IOError /\
  trace (snd (upload (mkEnv None false (Some [r_ic]) None true true true) req0 [])) = [].
Proof.
  exact (upload_save_failure (mkEnv None false (Some [r_ic]) None true true true) req0 []
           eq_refl eq_refl).
Defined.

Lemma for_results_smtp env b email ts rs :
  forall ub cb s,
  for_results (with_smtp env b) email ts rs ub cb s = for_results env email ts rs ub cb s.
Proof.
  induction rs as [|r rs IH]; intros ub cb s; [reflexivity|].
  rewrite !for_results_cons.
  assert (E : process_result (with_smtp env b) email ts r s = process_result env email ts r s)
    by (rewrite !process_result_run; reflexivity).
  rewrite E; destruct (process_result env email ts r s) as [[p|e] s']; auto.
Qed.

(** Whether the mail relay accepts the message changes nothing of the
    request: same response, same calls (the email is attempted either way)
    and same files. *)
Theorem upload_independent_of_smtp (env : Env) (req : Request) (fs : list string) (b : bool) :
  upload (with_smtp env b) req fs = upload env req fs.
Proof.
  rewrite !upload_run.
  change (env_save_ok (with_smtp env b)) with (env_save_ok env).
  change (env_model (with_smtp env b)) with (env_model env).
  change (form_email (with_smtp env b) req) with (form_email env req).
  cbv zeta; destruct (env_model env) as [rs|]; [rewrite for_results_smtp|]; reflexivity.
Qed.

Lemma for_results_trace_all_ok env email ts rs :
  env_firebase_ok env = true -> env_supabase_ok env = true ->
  (forall r, In r rs -> exists img d, annotate r = Ok (img, d)) ->
  forall ub cb s,
  trace (snd (for_results env email ts rs ub cb s)) =
  (trace s ++ flat_map (fun r => result_events env email ts (classes_of r)) rs)%list.
Proof.
  intros Hf Hs; induction rs as [|r rs IH]; intros Hall ub cb s.
  - simpl; rewrite app_nil_r; reflexivity.
  - rewrite for_results_cons, process_result_run.
    destruct (Hall r (or_introl eq_refl)) as [img [d A]].
    rewrite A, Hf, Hs; cbv zeta; cbn [snd fst trace].
    rewrite IH by (intros x Hx; apply Hall; right; exact Hx).
    simpl; replace (classes_of r) with d by (unfold classes_of; rewrite A; reflexivity).
    repeat rewrite <- app_assoc; reflexivity.
Qed.

(** When every label resolves and both store writes succeed, a request
    saves the upload, calls the model once, and then, for each model
    result in order, writes the result image, uploads it, pushes to
    Firebase, inserts into Supabase and sends the email, in that order. *)
Theorem upload_trace_all_ok (env : Env) (req : Request) (fs : list string)
    (rs : list YResult) :
  req_has_image req = true -> env_save_ok env = true -> env_model env = Some rs ->
  (forall r, In r rs -> exists img d, annotate r = Ok (img, d)) ->
  env_firebase_ok env = true -> env_supabase_ok env = true ->
  trace (snd (upload env req fs)) =
  ([EvSave (upload_path (req_timestamp req)); EvInfer (upload_path (req_timestamp req))] ++
   flat_map (fun r => result_events env (form_email env req) (req_timestamp req)
                                    (classes_of r)) rs)%list.
Proof.
  intros Hi Hs Hm Hall Hf Hsb.
  rewrite upload_run, Hi, Hs, Hm; cbv zeta.
  pose proof (for_results_trace_all_ok env (form_email env req) (req_timestamp req) rs Hf Hsb
                Hall None None
                (mkState [EvSave (upload_path (req_timestamp req));
                          EvInfer (upload_path (req_timestamp req))]
                         (add_file (upload_path (req_timestamp req)) fs))) as E.
  destruct (for_results _ _ _ rs None None _) as [[[[u|] [d|]]|e] s2]; exact E.
Qed.

Lemma upload_trace_all_ok_witness :
  trace (snd (upload (env_ok [r_ic; r_empty]) req0 [])) =
  ([EvSave (upload_path "20240101_120000"); EvInfer (upload_path "20240101_120000")] ++
   result_events (env_ok [r_ic; r_empty]) (Some "qa@example.com") "20240101_120000"
     ["IC-defect"; "LED"] ++
   result_events (env_ok [r_ic; r_empty]) (Some "qa@example.com") "20240101_120000" [])%list.
Proof.
  rewrite (upload_trace_all_ok (env_ok [r_ic; r_empty]) req0 [] [r_ic; r_empty]
             eq_refl eq_refl eq_refl).
  - reflexivity.
  - intros x [<- | [<- | []]]; do 2 eexists; reflexivity.
  - reflexivity.
  - reflexivity.
Defined.

Lemma process_result_consistent env email ts r s :
  Forall (event_consistent env email ts) (trace s) ->
  Forall (event_consistent env email ts) (trace (snd (process_result env email ts r s))).
Proof.
  intros H; rewrite process_result_run.
  destruct (annotate r) as [[img d]|e]; [|exact H]; cbv zeta.
  destruct (env_firebase_ok env), (env_supabase_ok env); simpl;
    repeat (apply Forall_app; split); auto;
    repeat constructor.
Qed.

(** Every record pushed to Firebase or inserted into Supabase, and every
    email, carries the request's timestamp, the form email (or the
    configured receiver) and the url the Cloudinary helper returned. *)
Theorem upload_records_consistent (env : Env) (req : Request) (fs : list string) :
  Forall (event_consistent env (form_email env req) (req_timestamp req))
         (trace (snd (upload env req fs))).
Proof.
  rewrite upload_run.
  destruct (req_has_image req), (env_save_ok env); simpl; auto.
  destruct (env_model env) as [rs|]; [|repeat constructor].
  pose proof (for_results_invariant env (form_email env req) (req_timestamp req)
                (fun s => Forall (event_consistent env (form_email env req) (req_timestamp req))
                                 (trace s))
                (fun r s => process_result_consistent env _ _ r s)
                rs None None
                (mkState [EvSave (upload_path (req_timestamp req));
                          EvInfer (upload_path (req_timestamp req))]
                         (add_file (upload_path (req_timestamp req)) fs))) as I.
  cbn beta in I.
  destruct (for_results _ _ _ rs None None _) as [[[[u|] [d|]]|e] s2];
    apply I; repeat constructor.
Qed.

Lemma process_result_appends env email ts r s :
  exists X, trace (snd (process_result env email ts r s)) = (trace s ++ X)%list /\
            Forall (fun ev => is_save_or_infer ev = false) X.
Proof.
  rewrite process_result_run.
  destruct (annotate r) as [[img d]|e]; [|exists []; rewrite app_nil_r; auto]; cbv zeta.
  destruct (env_firebase_ok env), (env_supabase_ok env); cbn [snd trace];
    match goal with
    | |- exists X, ((?a ++ ?b) ++ ?c)%list = _ /\ _ =>
        exists (b ++ c)%list; rewrite <- app_assoc
    | |- exists X, (?a ++ ?b)%list = _ /\ _ => exists b
    end;
    (split; [reflexivity|]); repeat (apply Forall_app; split); repeat constructor.
Qed.

Lemma process_result_no_save_infer env email ts r s rest pre :
  trace s = (pre ++ rest)%list -> Forall (fun ev => is_save_or_infer ev = false) rest ->
  exists rest', trace (snd (process_result env email ts r s)) = (pre ++ rest')%list /\
                Forall (fun ev => is_save_or_infer ev = false) rest'.
Proof.
  intros Ht Hr.
  destruct (process_result_appends env email ts r s) as [X [HX HF]].
  exists (rest ++ X)%list; rewrite HX, Ht, app_assoc; split; [reflexivity|].
  apply Forall_app; auto.
Qed.

(** Once the upload is saved, the trace starts with the save and the one
    model call on the saved path; nothing later saves or runs the model
    again, whatever the number of results or failures. *)
Theorem upload_model_called_once (env : Env) (req : Request) (fs : list string) :
  req_has_image req = true -> env_save_ok env = true ->
  exists rest,
    trace (snd (upload env req fs)) =
      EvSave (upload_path (req_timestamp req)) :: EvInfer (upload_path (req_timestamp req)) :: rest /\
    Forall (fun ev => is_save_or_infer ev = false) rest.
Proof.
  intros Hi Hs; rewrite upload_run, Hi, Hs; cbv zeta.
  destruct (env_model env) as [rs|]; [|exists []; auto].
  set (pre := [EvSave (upload_path (req_timestamp req)); EvInfer (upload_path (req_timestamp req))]).
  pose proof (for_results_invariant env (form_email env req) (req_timestamp req)
                (fun s => exists rest, trace s = (pre ++ rest)%list /\
                          Forall (fun ev => is_save_or_infer ev = false) rest)
                (fun r s H => match H with ex_intro _ rest (conj Ht Hr) =>
                   process_result_no_save_infer env _ _ r s rest pre Ht Hr end)
                rs None None (mkState pre (add_file (upload_path (req_timestamp req)) fs))
                (ex_intro _ [] (conj (eq_sym (app_nil_r pre)) (Forall_nil _)))) as I.
  destruct (for_results _ _ _ rs None None _) as [[[[u|] [d|]]|e] s2];
    exact I.
Qed.

Lemma upload_model_called_once_witness :
  exists rest,
    trace (snd (upload (env_ok [r_ic; r_ic]) req0 [])) =
      EvSave (upload_path "20240101_120000") :: EvInfer (upload_path "20240101_120000") :: rest /\
    Forall (fun ev => is_save_or_infer ev = false) rest.
Proof. exact (upload_model_called_once (env_ok [r_ic; r_ic]) req0 [] eq_refl eq_refl). Defined.

Lemma process_result_no_email env email ts r s :
  env_firebase_ok env = false \/ env_supabase_ok env = false ->
  Forall (fun ev => is_email ev = false) (trace s) ->
  Forall (fun ev => is_email ev = false) (trace (snd (process_result env email ts r s))).
Proof.
  intros Hfs H; rewrite process_result_run.
  destruct (annotate r) as [[img d]|e]; [|exact H]; cbv zeta.
  destruct (env_firebase_ok env), (env_supabase_ok env);
    [destruct Hfs; discriminate| | |]; cbn [snd trace];
    repeat (apply Forall_app; split); auto; repeat constructor.
Qed.

(** No email is ever sent when the Firebase push or the Supabase insert
    fails: the exception leaves the loop body before [send_email]. *)
Theorem upload_no_email_after_store_failure (env : Env) (req : Request) (fs : list string) :
  env_firebase_ok env = false \/ env_supabase_ok env = false ->
  Forall (fun ev => is_email ev = false) (trace (snd (upload env req fs))).
Proof.
  intros Hfs; rewrite upload_run.
  destruct (req_has_image req), (env_save_ok env); simpl; auto.
  destruct (env_model env) as [rs|]; [|repeat constructor].
  pose proof (for_results_invariant env (form_email env req) (req_timestamp req)
                (fun s => Forall (fun ev => is_email ev = false) (trace s))
                (fun r s => process_result_no_email env _ _ r s Hfs)
                rs None None
                (mkState [EvSave (upload_path (req_timestamp req));
                          EvInfer (upload_path (req_timestamp req))]
                         (add_file (upload_path (req_timestamp req)) fs))) as I.
  cbn beta in I.
  destruct (for_results _ _ _ rs None None _) as [[[[u|] [d|]]|e] s2];
    apply I; repeat constructor.
Qed.

Lemma upload_no_email_after_store_failure_witness :
  Forall (fun ev => is_email ev = false)
    (trace (snd (upload (mkEnv None true (Some [r_ic; r_empty]) None true false true) req0 []))).
Proof.
  exact (upload_no_email_after_store_failure
           (mkEnv None true (Some [r_ic; r_empty]) None true false true) req0 [] (or_intror eq_refl)).
Defined.

(** A box whose class id is missing from [r.names], in any of the model's
    results, makes the whole request fail with status 500, even when the
    results before it were already stored and emailed. *)
Theorem upload_unknown_class_id_fails (env : Env) (req : Request) (fs : list string)
    (rs : list YResult) (r : YResult) (b : Box) :
  env_model env = Some rs -> In r rs -> In b (res_boxes r) ->
  dict_get (names r) (box_cls b) = None ->
  status (fst (upload env req fs)) = 500.
Proof.
  intros Hm Hr Hb Hd; rewrite upload_response; unfold response_of; rewrite Hm.
  destruct (req_has_image req), (env_save_ok env); try reflexivity.
  destruct (results_outcome_missing env rs r Hr
              (annotate_loop_missing _ _ _ Hb Hd (orig_img r) []) None None) as [e ->].
  reflexivity.
Qed.

Lemma upload_unknown_class_id_fails_witness :
  status (fst (upload (env_ok [r_ic; mkYResult img0 [(0, "IC-defect")]
                                             [mkBox 7 (1, 1, 2, 2)%Z None]]) req0 [])) = 500.
Proof.
  exact (upload_unknown_class_id_fails
           (env_ok [r_ic; mkYResult img0 [(0, "IC-defect")] [mkBox 7 (1, 1, 2, 2)%Z None]])
           req0 [] _ (mkYResult img0 [(0, "IC-defect")] [mkBox 7 (1, 1, 2, 2)%Z None])
           (mkBox 7 (1, 1, 2, 2)%Z None)
           eq_refl (or_intror (or_introl eq_refl)) (or_introl eq_refl) eq_refl).
Defined.

End DefexVision.
